(** * A shallow embedding of [app/app.py]

    The program is a Flask application with four view functions
    ([index], [upload_file], [authorize], [oauth2callback]) and one helper
    ([get_drive_service]).  Every view reads or writes the Flask [session]
    (a dictionary with string keys) and calls into third-party libraries:
    [google_auth_oauthlib.flow.Flow], [googleapiclient] and [pickle].

    The embedding keeps the control flow of each function line by line.
    - The session is a finite map from strings to strings (Python [str] and
      [bytes] are both rendered as Rocq strings).
    - A Python call either returns a value or raises: [result].
    - Views run in a state-and-exception monad over a [World] that holds the
      session, the entropy consumed by the OAuth library, and the trace of
      session accesses and remote calls performed so far.
    - The third-party libraries are not part of the repository.  They are a
      parameter, [Library], whose operations are functions of their arguments.
      The operations that parse session or request data or talk to the
      network may raise.  The content of the client secrets file is deployment
      configuration, like [FOLDER_ID], and is a parameter too. *)

From stdpp Require Import gmap strings list.

Open Scope string_scope.

(** ** Python outcomes *)

Inductive exn : Type :=
| KeyError (key : string)
| AttributeError (type_name attr : string)
| LibraryError (origin : string).

Inductive result (A : Type) : Type :=
| Ok (a : A)
| Raise (e : exn).
Arguments Ok {A} a.
Arguments Raise {A} e.

Definition is_ok {A : Type} (r : result A) : bool :=
  match r with Ok _ => true | Raise _ => false end.

(** ** Module-level configuration (lines 12-14) *)

Definition SCOPES : list string := ["https://www.googleapis.com/auth/drive.file"].
Definition CLIENT_SECRETS_FILE : string := "client_secrets.json".
Definition FOLDER_ID : string := "your-google-drive-folder-id".

(** ** Requests and responses *)

(** [werkzeug.FileStorage]: the two attributes the program reads. *)
Record FileStorage : Type := { filename : string; stream : string }.

(** [request.url], kept in parsed form: root, path and query arguments. *)
Record Url : Type :=
  { url_root : string; url_path : string; url_args : list (string * string) }.

Record Request : Type := { files : gmap string FileStorage; url : Url }.

(** The two kinds of response the views build. *)
Inductive Response : Type :=
| redirect (location : string)
| render_template (template_name : string) (context : list (string * string)).

(** The routing table, from the [@app.route] decorators. *)
Inductive endpoint : Type := Index | Upload_file | Authorize | Oauth2callback.

Definition url_for (e : endpoint) : string :=
  match e with
  | Index => "/"
  | Upload_file => "/upload"
  | Authorize => "/authorize"
  | Oauth2callback => "/oauth2callback"
  end.

(** [url_for(e, _external=True)]: the absolute form, on the request's root. *)
Definition url_for_external (request : Request) (e : endpoint) : string :=
  url_root (url request) ++ url_for e.

(** The value of a query argument of a URL (first occurrence). *)
Fixpoint query_get (key : string) (args : list (string * string)) : option string :=
  match args with
  | [] => None
  | (k, v) :: rest => if String.eqb k key then Some v else query_get key rest
  end.

(** The state value a callback URL presents. *)
Definition presented_state (request : Request) : option string :=
  query_get "state" (url_args (url request)).

(** Values of the [file_metadata] dictionary (line 37): a string or a list of
    strings. *)
Inductive pyvalue : Type :=
| PyStr (s : string)
| PyList (l : list string).

Section App.

(** Opaque objects of the third-party libraries. *)
Context {Credentials Service Media ClientConfig : Type}.

(** A [Flow] object: what [Flow.from_client_secrets_file] was given. *)
Record Flow : Type :=
  { client_config : ClientConfig;
    scopes : list string;
    flow_state : option string;
    redirect_uri : string }.

(** The third-party operations the program calls. *)
Record Library : Type :=
  { (* the parsed content of the client secrets file at a path *)
    client_secrets : string → ClientConfig;
    (* [flow.authorization_url()]: the URL and the state token, drawn from
       the entropy index *)
    authorization_url : Flow → nat → string * string;
    (* [flow.fetch_token(authorization_response=...)] then [flow.credentials] *)
    fetch_token : Flow → Url → result Credentials;
    pickle_dumps : Credentials → string;
    pickle_loads : string → result Credentials;
    (* [build(serviceName, version, credentials=...)] *)
    build : string → string → Credentials → result Service;
    (* [MediaFileUpload(filename, resumable=...)] *)
    MediaFileUpload : string → bool → result Media;
    (* [service.files().create(body, media_body, fields).execute()] *)
    files_create_execute :
      Service → gmap string pyvalue → Media → string → result unit }.

(** ** The world a view runs in *)

Inductive event : Type :=
| SessionContains (key : string)
| SessionGetItem (key : string)
| SessionSetItem (key value : string)
| FetchToken (flow : Flow) (authorization_response : Url)
| FilesCreate (service : Service) (body : gmap string pyvalue)
              (media_body : Media) (fields : string).

(** [trace] lists the events newest first. *)
Record World : Type :=
  { session : gmap string string; nonce : nat; trace : list event }.

Definition emit (e : event) (w : World) : World :=
  {| session := session w; nonce := nonce w; trace := e :: trace w |}.

(** ** The monad of views *)

Definition M (A : Type) : Type := World → result A * World.

Definition ret {A : Type} (a : A) : M A := fun w => (Ok a, w).

Definition raise {A : Type} (e : exn) : M A := fun w => (Raise e, w).

Definition bind {A B : Type} (m : M A) (k : A → M B) : M B :=
  fun w =>
    match m w with
    | (Ok a, w') => k a w'
    | (Raise e, w') => (Raise e, w')
    end.

(** A library call that leaves no event. *)
Definition call {A : Type} (r : result A) : M A := fun w => (r, w).

Notation "'do' x <- m ; k" := (bind m (fun x => k))
  (at level 10, x name, m at level 100, k at level 200).
Notation "'do' ' p <- m ; k" := (bind m (fun x => let 'p := x in k))
  (at level 10, p pattern, m at level 100, k at level 200).

(** [key in session] *)
Definition session_contains (key : string) : M bool :=
  fun w => (Ok (bool_decide (is_Some (session w !! key))), emit (SessionContains key) w).

(** [session[key]] *)
Definition session_getitem (key : string) : M string :=
  fun w =>
    match session w !! key with
    | Some v => (Ok v, emit (SessionGetItem key) w)
    | None => (Raise (KeyError key), emit (SessionGetItem key) w)
    end.

(** [session[key] = value] *)
Definition session_setitem (key value : string) : M unit :=
  fun w =>
    (Ok tt,
     {| session := <[key := value]> (session w);
        nonce := nonce w;
        trace := SessionSetItem key value :: trace w |}).

Variable lib : Library.

(** [Flow.from_client_secrets_file(file, scopes=, state=, redirect_uri=)] *)
Definition from_client_secrets_file (file : string) (scopes : list string)
    (state : option string) (redirect_uri : string) : M Flow :=
  ret {| client_config := client_secrets lib file; scopes := scopes;
         flow_state := state; redirect_uri := redirect_uri |}.

(** [flow.authorization_url()]: consumes one unit of entropy. *)
Definition flow_authorization_url (flow : Flow) : M (string * string) :=
  fun w =>
    (Ok (authorization_url lib flow (nonce w)),
     {| session := session w; nonce := S (nonce w); trace := trace w |}).

(** [flow.fetch_token(authorization_response=u)]; [flow.credentials] *)
Definition flow_fetch_token (flow : Flow) (u : Url) : M Credentials :=
  fun w => (fetch_token lib flow u, emit (FetchToken flow u) w).

(** What [get_drive_service] may return: Python is dynamically typed and
    the function returns either a Flask response or a Drive client. *)
Inductive pyobject : Type :=
| IsResponse (r : Response)
| IsService (s : Service).

(** [obj.files()]: only a Drive client has the attribute. *)
Definition getattr_files (obj : pyobject) : M Service :=
  match obj with
  | IsService s => ret s
  | IsResponse _ => raise (AttributeError "Response" "files")
  end.

(** [resource.create(body=, media_body=, fields=).execute()] *)
Definition create_execute (s : Service) (body : gmap string pyvalue)
    (media_body : Media) (fields : string) : M unit :=
  fun w =>
    (files_create_execute lib s body media_body fields,
     emit (FilesCreate s body media_body fields) w).

(** ** The program *)

(** lines 16-20 *)
Definition get_drive_service : M pyobject :=
  do present <- session_contains "credentials";
  if negb present then ret (IsResponse (redirect (url_for Authorize)))
  else
    do blob <- session_getitem "credentials";
    do credentials <- call (pickle_loads lib blob);
    do service <- call (build lib "drive" "v3" credentials);
    ret (IsService service).

(** lines 22-26 *)
Definition index (request : Request) : M Response :=
  do present <- session_contains "credentials";
  if negb present then ret (redirect (url_for Authorize))
  else ret (render_template "index.html" [("folder_id", FOLDER_ID)]).

(** line 37 *)
Definition file_metadata (file : FileStorage) : gmap string pyvalue :=
  <["name" := PyStr (filename file)]> (<["parents" := PyList [FOLDER_ID]]> ∅).

(** lines 28-47 *)
Definition upload_file (request : Request) : M Response :=
  match files request !! "file" with
  | None => ret (redirect (url_for Index))
  | Some file =>
      if String.eqb (filename file) "" then ret (redirect (url_for Index))
      else
        do drive_service <- get_drive_service;
        do media <- call (MediaFileUpload lib (stream file) true);
        do resource <- getattr_files drive_service;
        do _ <- create_execute resource (file_metadata file) media "id";
        ret (redirect (url_for Index))
  end.

(** lines 49-58 *)
Definition authorize (request : Request) : M Response :=
  do flow <- from_client_secrets_file CLIENT_SECRETS_FILE SCOPES None
               (url_for_external request Oauth2callback);
  do '(authorization_url, state) <- flow_authorization_url flow;
  do _ <- session_setitem "state" state;
  ret (redirect authorization_url).

(** lines 60-71 *)
Definition oauth2callback (request : Request) : M Response :=
  do state <- session_getitem "state";
  do flow <- from_client_secrets_file CLIENT_SECRETS_FILE SCOPES (Some state)
               (url_for_external request Oauth2callback);
  do credentials <- flow_fetch_token flow (url request);
  do _ <- session_setitem "credentials" (pickle_dumps lib credentials);
  ret (redirect (url_for Index)).

(** What lines 19-20 build from a stored blob. *)
Definition stored_service (blob : string) : result pyobject :=
  match pickle_loads lib blob with
  | Ok credentials =>
      match build lib "drive" "v3" credentials with
      | Ok service => Ok (IsService service)
      | Raise e => Raise e
      end
  | Raise e => Raise e
  end.

(** The flow object of lines 63-68 for a stored state token. *)
Definition callback_flow (request : Request) (state : string) : Flow :=
  {| client_config := client_secrets lib CLIENT_SECRETS_FILE;
     scopes := SCOPES;
     flow_state := Some state;
     redirect_uri := url_for_external request Oauth2callback |}.

(** The flow object of lines 51-55. *)
Definition authorize_flow (request : Request) : Flow :=
  {| client_config := client_secrets lib CLIENT_SECRETS_FILE;
     scopes := SCOPES;
     flow_state := None;
     redirect_uri := url_for_external request Oauth2callback |}.

(** The view function of each endpoint. *)
Definition view_function (e : endpoint) : Request → M Response :=
  match e with
  | Index => index
  | Upload_file => upload_file
  | Authorize => authorize
  | Oauth2callback => oauth2callback
  end.

(** Serving a sequence of requests on one browser session: an unhandled
    exception ends that request only, and the next one runs on the world
    the previous one left. *)
Fixpoint serve (requests : list (endpoint * Request)) (w : World) : World :=
  match requests with
  | [] => w
  | (e, request) :: rest => serve rest (snd (view_function e request w))
  end.

(** ** Observations on traces *)

(** The bodies of the create-file calls of a trace, newest first. *)
Fixpoint create_calls (t : list event) : list (gmap string pyvalue) :=
  match t with
  | [] => []
  | FilesCreate _ body _ _ :: rest => body :: create_calls rest
  | _ :: rest => create_calls rest
  end.

(** The upload requests the handler turns away before doing anything. *)
Definition malformed (request : Request) : Prop :=
  files request !! "file" = None ∨
  ∃ file, files request !! "file" = Some file ∧ filename file = "".

End App.

Arguments Flow : clear implicits.
Arguments Library : clear implicits.
Arguments World : clear implicits.
Arguments event : clear implicits.
Arguments pyobject : clear implicits.

(** A library that rejects a callback URL whose state differs from the state
    its flow was built with. *)
Definition enforces_state {Credentials Service Media ClientConfig : Type}
    (lib : Library Credentials Service Media ClientConfig) : Prop :=
  ∀ (flow : Flow ClientConfig) (u : Url),
    query_get "state" (url_args u) ≠ flow_state flow →
    is_ok (fetch_token lib flow u) = false.

(** ** A concrete library, sessions and requests

    Used to run the program on explicit inputs.  All opaque objects are
    strings.  [media_accepts_stream] says whether [MediaFileUpload] returns
    when it is handed a stream; the token exchange compares the state of the
    URL with the state of the flow and then accepts any code. *)

Fixpoint tally (n : nat) : string :=
  match n with
  | O => ""
  | S k => "I" ++ tally k
  end.

Definition sample_fetch_token (flow : Flow string) (u : Url) : result string :=
  if bool_decide (query_get "state" (url_args u) = flow_state flow) then
    match query_get "code" (url_args u) with
    | Some code => Ok ("token-for-" ++ code)
    | None => Raise (LibraryError "MissingCodeError")
    end
  else Raise (LibraryError "MismatchingStateError").

Definition sample_library (media_accepts_stream : bool)
    : Library string string string string :=
  {| client_secrets := fun file => "secrets-of-" ++ file;
     authorization_url := fun flow n =>
       ("https://accounts.example/auth?state=st" ++ tally n, "st" ++ tally n);
     fetch_token := sample_fetch_token;
     pickle_dumps := fun c => "pickled-" ++ c;
     pickle_loads := fun b => Ok ("loaded-" ++ b);
     build := fun name version c => Ok (name ++ "-" ++ version ++ "-" ++ c);
     MediaFileUpload := fun s resumable =>
       if media_accepts_stream then Ok ("media-" ++ s)
       else Raise (LibraryError "TypeError");
     files_create_execute := fun _ _ _ _ => Ok tt |}.

Definition sample_world (s : gmap string string) : World string string string :=
  {| session := s; nonce := 0; trace := [] |}.

Definition callback_request (state code : string) : Request :=
  {| files := ∅;
     url := {| url_root := "http://localhost:5000";
               url_path := "/oauth2callback";
               url_args := [("state", state); ("code", code)] |} |}.

Definition upload_request (fs : gmap string FileStorage) : Request :=
  {| files := fs;
     url := {| url_root := "http://localhost:5000";
               url_path := "/upload";
               url_args := [] |} |}.

Definition photo : FileStorage := {| filename := "photo.jpg"; stream := "JFIF" |}.

Definition unnamed_file : FileStorage := {| filename := ""; stream := "" |}.

(** The callback URLs handed to [flow.fetch_token] in a trace, newest first. *)
Fixpoint token_exchanges {Service Media ClientConfig : Type}
    (t : list (event Service Media ClientConfig)) : list Url :=
  match t with
  | [] => []
  | FetchToken _ u :: rest => u :: token_exchanges rest
  | _ :: rest => token_exchanges rest
  end.

(** The keys written by [session[key] = value] in a trace, newest first. *)
Fixpoint session_writes {Service Media ClientConfig : Type}
    (t : list (event Service Media ClientConfig)) : list string :=
  match t with
  | [] => []
  | SessionSetItem k _ :: rest => k :: session_writes rest
  | _ :: rest => session_writes rest
  end.

(** The [methods] argument of each [@app.route] decorator (lines 22, 28, 49
    and 60); a route declared without it answers GET. *)
Definition methods (e : endpoint) : list string :=
  match e with
  | Upload_file => ["POST"]
  | Index | Authorize | Oauth2callback => ["GET"]
  end.

(** The endpoint whose rule is a given path. *)
Definition match_rule (path : string) : option endpoint :=
  if String.eqb path "/" then Some Index
  else if String.eqb path "/upload" then Some Upload_file
  else if String.eqb path "/authorize" then Some Authorize
  else if String.eqb path "/oauth2callback" then Some Oauth2callback
  else None.

(** A request that only names its root, for the routes that read nothing
    else of it. *)
Definition plain_request : Request :=
  {| files := ∅;
     url := {| url_root := "http://localhost:5000"; url_path := "/"; url_args := [] |} |}.

(** * Facts about the program *)

Section Facts.

Context {Credentials Service Media ClientConfig : Type}.
Variable lib : Library Credentials Service Media ClientConfig.
Implicit Types (w : World Service Media ClientConfig) (request : Request).

Ltac run :=
  unfold upload_file, index, authorize, oauth2callback, get_drive_service,
    from_client_secrets_file, flow_authorization_url, flow_fetch_token,
    create_execute, getattr_files, session_contains, session_getitem,
    session_setitem, bind, call, ret, raise, emit; simpl.

Lemma contains_false (m : gmap string string) (k : string) :
  m !! k = None → bool_decide (is_Some (m !! k)) = false.
Proof.
  intros H. apply bool_decide_eq_false_2. rewrite H. intros [v Hv]. discriminate.
Qed.

Lemma contains_true (m : gmap string string) (k v : string) :
  m !! k = Some v → bool_decide (is_Some (m !! k)) = true.
Proof.
  intros H. apply bool_decide_eq_true_2. rewrite H. eexists. reflexivity.
Qed.

(** ** [get_drive_service] *)

Lemma get_drive_service_absent w :
  session w !! "credentials" = None →
  get_drive_service lib w =
    (Ok (IsResponse (redirect (url_for Authorize))),
     emit (SessionContains "credentials") w).
Proof.
  intros H. run. rewrite (contains_false _ _ H). reflexivity.
Qed.

Lemma get_drive_service_present w blob :
  session w !! "credentials" = Some blob →
  get_drive_service lib w =
    (stored_service lib blob,
     emit (SessionGetItem "credentials") (emit (SessionContains "credentials") w)).
Proof.
  intros H. run. rewrite (contains_true _ _ _ H). simpl. rewrite H.
  unfold stored_service.
  destruct (pickle_loads lib blob) as [c|e]; [|reflexivity].
  destruct (build lib "drive" "v3" c); reflexivity.
Qed.

Lemma get_drive_service_session w :
  session (snd (get_drive_service lib w)) = session w.
Proof.
  destruct (session w !! "credentials") as [blob|] eqn:H.
  - rewrite (get_drive_service_present _ _ H). reflexivity.
  - rewrite (get_drive_service_absent _ H). reflexivity.
Qed.

(** The result of [get_drive_service] is a function of the credential entry
    of the session alone. *)
Lemma get_drive_service_reads_credentials_only w1 w2 :
  session w1 !! "credentials" = session w2 !! "credentials" →
  fst (get_drive_service lib w1) = fst (get_drive_service lib w2).
Proof.
  intros H.
  destruct (session w2 !! "credentials") as [blob|] eqn:H2.
  - rewrite (get_drive_service_present _ _ H), (get_drive_service_present _ _ H2).
    reflexivity.
  - rewrite (get_drive_service_absent _ H), (get_drive_service_absent _ H2).
    reflexivity.
Qed.

Lemma stored_service_not_response blob r :
  stored_service lib blob ≠ Ok (IsResponse r).
Proof.
  unfold stored_service.
  destruct (pickle_loads lib blob) as [c|e]; [|discriminate].
  destruct (build lib "drive" "v3" c); discriminate.
Qed.

(** ** [upload_file] *)

Lemma upload_file_malformed request w :
  malformed request → upload_file lib request w = (Ok (redirect (url_for Index)), w).
Proof.
  intros [H | (file & H & Hname)]; unfold upload_file; rewrite H.
  - reflexivity.
  - rewrite Hname. reflexivity.
Qed.

Lemma nonempty_eqb (s : string) : s ≠ "" → String.eqb s "" = false.
Proof. intros H. apply String.eqb_neq. exact H. Qed.

(** The steps of lines 36-47, for a request that passes the two checks. *)
Lemma upload_file_run request w file :
  files request !! "file" = Some file →
  filename file ≠ "" →
  upload_file lib request w =
    match get_drive_service lib w with
    | (Raise e, w1) => (Raise e, w1)
    | (Ok drive_service, w1) =>
        match MediaFileUpload lib (stream file) true with
        | Raise e => (Raise e, w1)
        | Ok media =>
            match drive_service with
            | IsResponse _ => (Raise (AttributeError "Response" "files"), w1)
            | IsService s =>
                (match files_create_execute lib s (file_metadata file) media "id" with
                 | Ok _ => Ok (redirect (url_for Index))
                 | Raise e => Raise e
                 end,
                 emit (FilesCreate s (file_metadata file) media "id") w1)
            end
        end
    end.
Proof.
  intros Hf Hname. unfold upload_file. rewrite Hf, (nonempty_eqb _ Hname).
  unfold bind at 1.
  destruct (get_drive_service lib w) as [[obj|e] w1]; [|reflexivity].
  unfold bind, call, getattr_files, create_execute, ret, raise.
  destruct (MediaFileUpload lib (stream file) true) as [m|e]; [|reflexivity].
  destruct obj as [r|s]; [reflexivity|].
  destruct (files_create_execute lib s (file_metadata file) m "id"); reflexivity.
Qed.

Lemma upload_file_session request w :
  session (snd (upload_file lib request w)) = session w.
Proof.
  destruct (files request !! "file") as [file|] eqn:Hf.
  - destruct (decide (filename file = "")) as [Hname|Hname].
    + rewrite upload_file_malformed; [reflexivity|].
      right. exists file. auto.
    + rewrite (upload_file_run _ _ _ Hf Hname).
      pose proof (get_drive_service_session w) as Hs.
      destruct (get_drive_service lib w) as [[obj|e] w1]; simpl in Hs; [|exact Hs].
      destruct (MediaFileUpload lib (stream file) true) as [m|e]; [|exact Hs].
      destruct obj as [r|s]; exact Hs.
  - rewrite upload_file_malformed; [reflexivity|]. left. exact Hf.
Qed.

(** ** [index], [authorize], [oauth2callback] *)

Lemma index_session request w : session (snd (index request w)) = session w.
Proof. run. destruct (bool_decide _); reflexivity. Qed.

Lemma index_absent request w :
  session w !! "credentials" = None →
  index request w =
    (Ok (redirect (url_for Authorize)), emit (SessionContains "credentials") w).
Proof. intros H. run. rewrite (contains_false _ _ H). reflexivity. Qed.

Lemma index_present request w blob :
  session w !! "credentials" = Some blob →
  index request w =
    (Ok (render_template "index.html" [("folder_id", FOLDER_ID)]),
     emit (SessionContains "credentials") w).
Proof. intros H. run. rewrite (contains_true _ _ _ H). reflexivity. Qed.

Lemma authorize_run request w :
  authorize lib request w =
    (Ok (redirect (fst (authorization_url lib (authorize_flow lib request) (nonce w)))),
     {| session :=
          <["state" := snd (authorization_url lib (authorize_flow lib request) (nonce w))]>
            (session w);
        nonce := S (nonce w);
        trace :=
          SessionSetItem "state"
            (snd (authorization_url lib (authorize_flow lib request) (nonce w)))
          :: trace w |}).
Proof.
  run. unfold authorize_flow.
  destruct (authorization_url lib _ (nonce w)) as [u tok]. reflexivity.
Qed.

Lemma oauth2callback_no_state request w :
  session w !! "state" = None →
  oauth2callback lib request w =
    (Raise (KeyError "state"), emit (SessionGetItem "state") w).
Proof. intros H. run. rewrite H. reflexivity. Qed.

Lemma oauth2callback_run request w st :
  session w !! "state" = Some st →
  oauth2callback lib request w =
    match fetch_token lib (callback_flow lib request st) (url request) with
    | Ok c =>
        (Ok (redirect (url_for Index)),
         {| session := <["credentials" := pickle_dumps lib c]> (session w);
            nonce := nonce w;
            trace :=
              SessionSetItem "credentials" (pickle_dumps lib c)
              :: FetchToken (callback_flow lib request st) (url request)
              :: SessionGetItem "state" :: trace w |})
    | Raise e =>
        (Raise e,
         emit (FetchToken (callback_flow lib request st) (url request))
           (emit (SessionGetItem "state") w))
    end.
Proof.
  intros H. run. rewrite H. unfold callback_flow.
  destruct (fetch_token lib _ (url request)); reflexivity.
Qed.

(** A view that raises has written nothing to the session. *)
Lemma raise_leaves_session e request w x :
  fst (view_function lib e request w) = Raise x →
  session (snd (view_function lib e request w)) = session w.
Proof.
  destruct e; simpl.
  - intros _. apply index_session.
  - intros _. apply upload_file_session.
  - rewrite authorize_run. discriminate.
  - destruct (session w !! "state") as [st|] eqn:H.
    + rewrite (oauth2callback_run _ _ _ H).
      destruct (fetch_token lib _ (url request)); [discriminate | reflexivity].
    + rewrite (oauth2callback_no_state _ _ H). reflexivity.
Qed.

(** No view removes the credential entry. *)
Lemma view_keeps_credential e request w :
  is_Some (session w !! "credentials") →
  is_Some (session (snd (view_function lib e request w)) !! "credentials").
Proof.
  intros Hc. destruct e; simpl.
  - rewrite index_session. exact Hc.
  - rewrite upload_file_session. exact Hc.
  - rewrite authorize_run. simpl. rewrite lookup_insert_ne; [exact Hc | discriminate].
  - destruct (session w !! "state") as [st|] eqn:H.
    + rewrite (oauth2callback_run _ _ _ H).
      destruct (fetch_token lib _ (url request)); simpl.
      * rewrite lookup_insert_eq. eexists. reflexivity.
      * exact Hc.
    + rewrite (oauth2callback_no_state _ _ H). exact Hc.
Qed.

End Facts.

(** * The claims *)

(** ** Sessions without a stored credential *)

(** C1.  On a session that holds no stored credential the main page answers
    with a redirect to the authorization start route.  The upload route,
    given a file with a non-empty name, does not: [get_drive_service] returns
    the redirect, [upload_file] keeps it as [drive_service] and goes on, and
    the request ends in an exception, either the one raised by
    [MediaFileUpload] or the [AttributeError] of [drive_service.files].  No
    create-file call is issued and the session is not written. *)
Theorem upload_without_credential_raises
    {Credentials Service Media ClientConfig : Type}
    (lib : Library Credentials Service Media ClientConfig)
    (request : Request) (w : World Service Media ClientConfig) (file : FileStorage) :
  session w !! "credentials" = None →
  files request !! "file" = Some file →
  filename file ≠ "" →
  fst (index request w) = Ok (redirect (url_for Authorize)) ∧
  (∃ e, fst (upload_file lib request w) = Raise e ∧
        (e = AttributeError "Response" "files" ∨
         MediaFileUpload lib (stream file) true = Raise e)) ∧
  create_calls (trace (snd (upload_file lib request w))) = create_calls (trace w) ∧
  session (snd (upload_file lib request w)) = session w.
Proof.
  intros Hc Hf Hname. split; [|split; [|split]].
  - rewrite (index_absent _ _ Hc). reflexivity.
  - rewrite (upload_file_run lib _ _ _ Hf Hname), (get_drive_service_absent lib _ Hc).
    destruct (MediaFileUpload lib (stream file) true) as [m|e] eqn:Hm.
    + exists (AttributeError "Response" "files"). split; [reflexivity | left; reflexivity].
    + exists e. split; [reflexivity | right; reflexivity].
  - rewrite (upload_file_run lib _ _ _ Hf Hname), (get_drive_service_absent lib _ Hc).
    destruct (MediaFileUpload lib (stream file) true); reflexivity.
  - apply upload_file_session.
Qed.

Lemma upload_without_credential_raises_witness :
  session (sample_world ∅) !! "credentials" = None ∧
  files (upload_request {["file" := photo]}) !! "file" = Some photo ∧
  filename photo ≠ "" ∧
  ∃ e, fst (upload_file (sample_library true) (upload_request {["file" := photo]})
              (sample_world ∅)) = Raise e ∧
       (e = AttributeError "Response" "files" ∨
        MediaFileUpload (sample_library true) (stream photo) true = Raise e).
Proof.
  assert (H1 : session (sample_world ∅) !! "credentials" = None) by reflexivity.
  assert (H2 : files (upload_request {["file" := photo]}) !! "file" = Some photo)
    by reflexivity.
  assert (H3 : filename photo ≠ "") by discriminate.
  refine (conj H1 (conj H2 (conj H3 _))).
  exact (proj1 (proj2
    (upload_without_credential_raises (sample_library true) _ _ _ H1 H2 H3))).
Defined.

(** ** The callback route *)

(** C5.  A callback on a session that stores no state token fails: reading
    [session['state']] raises [KeyError], which propagates.  Nothing is
    written to the session, so no credential is stored, and no token exchange
    is attempted. *)
Theorem callback_without_state_raises
    {Credentials Service Media ClientConfig : Type}
    (lib : Library Credentials Service Media ClientConfig)
    (request : Request) (w : World Service Media ClientConfig) :
  session w !! "state" = None →
  fst (oauth2callback lib request w) = Raise (KeyError "state") ∧
  session (snd (oauth2callback lib request w)) = session w ∧
  trace (snd (oauth2callback lib request w)) = SessionGetItem "state" :: trace w.
Proof.
  intros H. rewrite (oauth2callback_no_state lib _ _ H). simpl. auto.
Qed.

Lemma callback_without_state_raises_witness :
  session (sample_world {["credentials" := "old"]}) !! "state" = None ∧
  fst (oauth2callback (sample_library true) (callback_request "st" "4/abc")
         (sample_world {["credentials" := "old"]})) = Raise (KeyError "state").
Proof.
  assert (H : session (sample_world {["credentials" := "old"]}) !! "state" = None)
    by reflexivity.
  exact (conj H (proj1 (callback_without_state_raises (sample_library true) _ _ H))).
Defined.

(** C6.  On a session that stores a state token, a callback whose token
    exchange returns credentials [c] stores [pickle.dumps(c)] under
    ['credentials'], leaves every other key alone and redirects to the main
    page.  On the resulting session [get_drive_service] no longer returns the
    redirect that stands for "not present": it reads the stored blob and
    builds the client from it, and the main page renders the form. *)
Theorem callback_success_authenticates
    {Credentials Service Media ClientConfig : Type}
    (lib : Library Credentials Service Media ClientConfig)
    (request : Request) (w : World Service Media ClientConfig)
    (st : string) (c : Credentials) :
  session w !! "state" = Some st →
  fetch_token lib (callback_flow lib request st) (url request) = Ok c →
  fst (oauth2callback lib request w) = Ok (redirect (url_for Index)) ∧
  session (snd (oauth2callback lib request w))
    = <["credentials" := pickle_dumps lib c]> (session w) ∧
  session (snd (oauth2callback lib request w)) !! "credentials"
    = Some (pickle_dumps lib c) ∧
  fst (get_drive_service lib (snd (oauth2callback lib request w)))
    = stored_service lib (pickle_dumps lib c) ∧
  (∀ r, fst (get_drive_service lib (snd (oauth2callback lib request w)))
          ≠ Ok (IsResponse r)) ∧
  (∀ request', fst (index request' (snd (oauth2callback lib request w)))
     = Ok (render_template "index.html" [("folder_id", FOLDER_ID)])).
Proof.
  intros Hst Hx. rewrite (oauth2callback_run lib _ _ _ Hst), Hx. simpl.
  set (w' := {| session := _ |}).
  assert (Hc : session w' !! "credentials" = Some (pickle_dumps lib c))
    by apply lookup_insert_eq.
  split; [reflexivity | split; [reflexivity | split; [exact Hc |]]].
  rewrite (get_drive_service_present lib _ _ Hc). simpl.
  split; [reflexivity | split].
  - intros r. apply stored_service_not_response.
  - intros request'. rewrite (index_present _ _ _ Hc). reflexivity.
Qed.

Lemma callback_success_authenticates_witness :
  session (sample_world {["state" := "st"]}) !! "state" = Some "st" ∧
  fetch_token (sample_library true)
    (callback_flow (sample_library true) (callback_request "st" "4/abc") "st")
    (url (callback_request "st" "4/abc")) = Ok "token-for-4/abc" ∧
  fst (oauth2callback (sample_library true) (callback_request "st" "4/abc")
         (sample_world {["state" := "st"]})) = Ok (redirect (url_for Index)).
Proof.
  assert (H1 : session (sample_world {["state" := "st"]}) !! "state" = Some "st")
    by reflexivity.
  assert (H2 : fetch_token (sample_library true)
    (callback_flow (sample_library true) (callback_request "st" "4/abc") "st")
    (url (callback_request "st" "4/abc")) = Ok "token-for-4/abc") by reflexivity.
  exact (conj H1 (conj H2 (proj1
    (callback_success_authenticates (sample_library true) _ _ _ _ H1 H2)))).
Defined.

(** The sample library compares the state of the URL with the state of the
    flow, as an OAuth client library does. *)
Lemma sample_library_enforces_state (b : bool) : enforces_state (sample_library b).
Proof.
  intros flow u Hne. simpl. unfold sample_fetch_token.
  rewrite bool_decide_eq_false_2; [reflexivity | exact Hne].
Qed.

(** C2, as stated, fails on its second half: the state token is not consumed.
    With a library that does compare states, a first callback presenting the
    stored token succeeds, the token is still in the session afterwards, and a
    second callback presenting the same token (with another code) succeeds
    too and replaces the credential. *)
Lemma state_token_reused_accepted :
  let lib := sample_library true in
  let w0 := sample_world {["state" := "st"]} in
  let w1 := snd (oauth2callback lib (callback_request "st" "code-1") w0) in
  let w2 := snd (oauth2callback lib (callback_request "st" "code-2") w1) in
  enforces_state lib ∧
  fst (oauth2callback lib (callback_request "st" "code-1") w0)
    = Ok (redirect (url_for Index)) ∧
  session w1 !! "state" = Some "st" ∧
  presented_state (callback_request "st" "code-2") = Some "st" ∧
  fst (oauth2callback lib (callback_request "st" "code-2") w1)
    = Ok (redirect (url_for Index)) ∧
  session w2 !! "credentials" = Some "pickled-token-for-code-2".
Proof.
  split; [apply sample_library_enforces_state|].
  vm_compute. repeat split; reflexivity.
Qed.

(** C2, amended.  The handler makes no comparison of its own: it builds the
    flow with the stored state token and leaves the check to the library's
    token exchange.  When that exchange rejects a URL whose state differs
    from the flow's, a callback presenting a state other than the stored one
    fails and the session, credential entry included, is as before.  The
    stored state token is never consumed: after any callback, accepted or
    rejected, it is still in the session. *)
Theorem callback_state_check_delegated
    {Credentials Service Media ClientConfig : Type}
    (lib : Library Credentials Service Media ClientConfig)
    (request : Request) (w : World Service Media ClientConfig) (st : string) :
  session w !! "state" = Some st →
  session (snd (oauth2callback lib request w)) !! "state" = Some st ∧
  (enforces_state lib →
   presented_state request ≠ Some st →
   is_ok (fst (oauth2callback lib request w)) = false ∧
   session (snd (oauth2callback lib request w)) = session w).
Proof.
  intros Hst. rewrite (oauth2callback_run lib _ _ _ Hst). split.
  - destruct (fetch_token lib _ (url request)); simpl; [|exact Hst].
    rewrite lookup_insert_ne; [exact Hst | discriminate].
  - intros Hlib Hne.
    specialize (Hlib (callback_flow lib request st) (url request) Hne).
    destruct (fetch_token lib _ (url request)); [discriminate|].
    simpl. auto.
Qed.

Lemma callback_state_check_delegated_witness :
  session (sample_world {["state" := "st"]}) !! "state" = Some "st" ∧
  enforces_state (sample_library true) ∧
  presented_state (callback_request "forged" "4/abc") ≠ Some "st" ∧
  is_ok (fst (oauth2callback (sample_library true) (callback_request "forged" "4/abc")
                (sample_world {["state" := "st"]}))) = false ∧
  session (snd (oauth2callback (sample_library true) (callback_request "forged" "4/abc")
                  (sample_world {["state" := "st"]})))
    = session (sample_world {["state" := "st"]}).
Proof.
  assert (H1 : session (sample_world {["state" := "st"]}) !! "state" = Some "st")
    by reflexivity.
  assert (H2 : presented_state (callback_request "forged" "4/abc") ≠ Some "st")
    by discriminate.
  refine (conj H1 (conj (sample_library_enforces_state true) (conj H2 _))).
  exact (proj2 (callback_state_check_delegated (sample_library true) _ _ _ H1)
           (sample_library_enforces_state true) H2).
Defined.

(** ** The upload route *)

Lemma file_metadata_dom (file : FileStorage) :
  dom (file_metadata file) = ({["name"; "parents"]} : gset string).
Proof.
  unfold file_metadata. rewrite !dom_insert_L, dom_empty_L. set_solver.
Qed.

(** A run of the upload route with a library whose [MediaFileUpload] does
    not accept a stream.  The session holds a credential and the file has a
    name; the request ends in the constructor's exception and the trace holds
    no create-file call. *)
Lemma upload_media_rejected_no_create :
  let lib := sample_library false in
  let request := upload_request {["file" := photo]} in
  let w := sample_world {["credentials" := "pickled-token"]} in
  session w !! "credentials" = Some "pickled-token" ∧
  files request !! "file" = Some photo ∧
  filename photo ≠ "" ∧
  fst (upload_file lib request w) = Raise (LibraryError "TypeError") ∧
  create_calls (trace (snd (upload_file lib request w))) = [].
Proof.
  vm_compute. repeat split; try reflexivity. discriminate.
Qed.

(** What lines 36-46 set out to do.  For an upload with a non-empty file
    name on a session that holds a credential, the handler issues at most one
    create-file call.  The call is reached only after unpickling the
    credential, building the client and [MediaFileUpload] have returned; its
    body has exactly the keys ['name'], bound to the submitted file name, and
    ['parents'], bound to the list holding [FOLDER_ID]. *)
Theorem upload_create_call_count
    {Credentials Service Media ClientConfig : Type}
    (lib : Library Credentials Service Media ClientConfig)
    (request : Request) (w : World Service Media ClientConfig)
    (file : FileStorage) (blob : string) :
  files request !! "file" = Some file →
  filename file ≠ "" →
  session w !! "credentials" = Some blob →
  (List.length (create_calls (trace (snd (upload_file lib request w))))
     ≤ S (List.length (create_calls (trace w))))%nat ∧
  (∀ c s m,
     pickle_loads lib blob = Ok c →
     build lib "drive" "v3" c = Ok s →
     MediaFileUpload lib (stream file) true = Ok m →
     trace (snd (upload_file lib request w))
       = FilesCreate s (file_metadata file) m "id"
         :: SessionGetItem "credentials" :: SessionContains "credentials" :: trace w ∧
     create_calls (trace (snd (upload_file lib request w)))
       = file_metadata file :: create_calls (trace w) ∧
     fst (upload_file lib request w)
       = match files_create_execute lib s (file_metadata file) m "id" with
         | Ok _ => Ok (redirect (url_for Index))
         | Raise e => Raise e
         end) ∧
  file_metadata file !! "name" = Some (PyStr (filename file)) ∧
  file_metadata file !! "parents" = Some (PyList [FOLDER_ID]) ∧
  dom (file_metadata file) = ({["name"; "parents"]} : gset string).
Proof.
  intros Hf Hname Hc.
  rewrite (upload_file_run lib _ _ _ Hf Hname), (get_drive_service_present lib _ _ Hc).
  unfold stored_service. split; [|split].
  - destruct (pickle_loads lib blob) as [c|e]; simpl; [|lia].
    destruct (build lib "drive" "v3" c) as [s|e]; simpl; [|lia].
    destruct (MediaFileUpload lib (stream file) true) as [m|e]; simpl; lia.
  - intros c s m Hl Hb Hm. rewrite Hl, Hb, Hm. simpl. auto.
  - split; [apply lookup_insert_eq | split; [|apply file_metadata_dom]].
    unfold file_metadata. rewrite lookup_insert_ne; [|discriminate].
    apply lookup_insert_eq.
Qed.

Lemma upload_create_call_count_witness :
  let lib := sample_library true in
  let request := upload_request {["file" := photo]} in
  let w := sample_world {["credentials" := "pickled-token"]} in
  files request !! "file" = Some photo ∧
  filename photo ≠ "" ∧
  session w !! "credentials" = Some "pickled-token" ∧
  (List.length (create_calls (trace (snd (upload_file lib request w))))
     ≤ S (List.length (create_calls (trace w))))%nat.
Proof.
  intros lib request w.
  assert (H1 : files request !! "file" = Some photo) by reflexivity.
  assert (H2 : filename photo ≠ "") by discriminate.
  assert (H3 : session w !! "credentials" = Some "pickled-token") by reflexivity.
  exact (conj H1 (conj H2 (conj H3
    (proj1 (upload_create_call_count lib request w photo _ H1 H2 H3))))).
Defined.

(** C3.  The upload route is written to issue one create-file call carrying
    the folder identifier and the file name (lines 37-46), but line 41 hands
    [file.stream] to [MediaFileUpload], a constructor that takes the path of
    a file.  Whenever the constructor rejects the stream, a well-formed upload
    from a session that holds a credential ends in an exception, the one of
    the constructor unless unpickling or building the client raised first,
    and no create-file call is issued; the session is not written. *)
Theorem upload_stream_rejected_no_create
    {Credentials Service Media ClientConfig : Type}
    (lib : Library Credentials Service Media ClientConfig)
    (request : Request) (w : World Service Media ClientConfig)
    (file : FileStorage) (blob : string) (x : exn) :
  files request !! "file" = Some file →
  filename file ≠ "" →
  session w !! "credentials" = Some blob →
  MediaFileUpload lib (stream file) true = Raise x →
  (∃ e, fst (upload_file lib request w) = Raise e ∧
        (e = x ∨ stored_service lib blob = Raise e)) ∧
  create_calls (trace (snd (upload_file lib request w))) = create_calls (trace w) ∧
  List.length (create_calls (trace (snd (upload_file lib request w))))
    ≠ S (List.length (create_calls (trace w))) ∧
  session (snd (upload_file lib request w)) = session w.
Proof.
  intros Hf Hname Hc Hm.
  assert (Hcalls : create_calls (trace (snd (upload_file lib request w)))
                   = create_calls (trace w)).
  { rewrite (upload_file_run lib _ _ _ Hf Hname), (get_drive_service_present lib _ _ Hc).
    destruct (stored_service lib blob) as [obj|e]; [|reflexivity].
    rewrite Hm. reflexivity. }
  split; [|split; [exact Hcalls | split; [|apply upload_file_session]]].
  - rewrite (upload_file_run lib _ _ _ Hf Hname), (get_drive_service_present lib _ _ Hc).
    destruct (stored_service lib blob) as [obj|e] eqn:Hs.
    + rewrite Hm. exists x. split; [reflexivity | left; reflexivity].
    + exists e. split; [reflexivity | right; reflexivity].
  - rewrite Hcalls. lia.
Qed.

Lemma upload_stream_rejected_no_create_witness :
  let lib := sample_library false in
  let request := upload_request {["file" := photo]} in
  let w := sample_world {["credentials" := "pickled-token"]} in
  files request !! "file" = Some photo ∧
  filename photo ≠ "" ∧
  session w !! "credentials" = Some "pickled-token" ∧
  MediaFileUpload lib (stream photo) true = Raise (LibraryError "TypeError") ∧
  create_calls (trace (snd (upload_file lib request w))) = create_calls (trace w).
Proof.
  intros lib request w.
  assert (H1 : files request !! "file" = Some photo) by reflexivity.
  assert (H2 : filename photo ≠ "") by discriminate.
  assert (H3 : session w !! "credentials" = Some "pickled-token") by reflexivity.
  assert (H4 : MediaFileUpload lib (stream photo) true
               = Raise (LibraryError "TypeError")) by reflexivity.
  exact (conj H1 (conj H2 (conj H3 (conj H4 (proj1 (proj2
    (upload_stream_rejected_no_create lib request w photo _ _ H1 H2 H3 H4))))))).
Defined.

(** C4.  An upload without a file field, or with a file whose name is the
    empty string, is answered with a redirect to the main page, and the
    request adds no create-file call to the trace. *)
Theorem malformed_upload_redirects
    {Credentials Service Media ClientConfig : Type}
    (lib : Library Credentials Service Media ClientConfig)
    (request : Request) (w : World Service Media ClientConfig) :
  malformed request →
  fst (upload_file lib request w) = Ok (redirect (url_for Index)) ∧
  create_calls (trace (snd (upload_file lib request w))) = create_calls (trace w).
Proof.
  intros H. rewrite (upload_file_malformed lib _ _ H). split; reflexivity.
Qed.

Lemma unnamed_file_malformed : malformed (upload_request {["file" := unnamed_file]}).
Proof. right. exists unnamed_file. split; reflexivity. Defined.

Lemma no_file_field_malformed : malformed (upload_request ∅).
Proof. left. reflexivity. Defined.

Lemma malformed_upload_redirects_witness :
  malformed (upload_request {["file" := unnamed_file]}) ∧
  fst (upload_file (sample_library true) (upload_request {["file" := unnamed_file]})
         (sample_world {["credentials" := "pickled-token"]}))
    = Ok (redirect (url_for Index)) ∧
  create_calls (trace (snd
    (upload_file (sample_library true) (upload_request {["file" := unnamed_file]})
       (sample_world {["credentials" := "pickled-token"]}))))
    = create_calls (trace (sample_world {["credentials" := "pickled-token"]})).
Proof.
  exact (conj unnamed_file_malformed
    (malformed_upload_redirects (sample_library true) _ _ unnamed_file_malformed)).
Defined.

(** C9.  A malformed upload is turned away before [get_drive_service] is
    called: the world after the request is the world before it, so the session
    is identical and the trace has gained no event, neither a read of the
    credential entry nor a write.  The response is the redirect to the main
    page on every session, authenticated or not. *)
Theorem malformed_upload_frame
    {Credentials Service Media ClientConfig : Type}
    (lib : Library Credentials Service Media ClientConfig)
    (request : Request) (w : World Service Media ClientConfig) :
  malformed request →
  snd (upload_file lib request w) = w ∧
  session (snd (upload_file lib request w)) = session w ∧
  trace (snd (upload_file lib request w)) = trace w ∧
  ∀ w' : World Service Media ClientConfig,
    fst (upload_file lib request w') = fst (upload_file lib request w) ∧
    fst (upload_file lib request w') = Ok (redirect (url_for Index)).
Proof.
  intros H. rewrite (upload_file_malformed lib _ _ H).
  split; [reflexivity | split; [reflexivity | split; [reflexivity|]]].
  intros w'. rewrite (upload_file_malformed lib _ _ H). split; reflexivity.
Qed.

Lemma malformed_upload_frame_witness :
  malformed (upload_request ∅) ∧
  snd (upload_file (sample_library true) (upload_request ∅)
         (sample_world {["credentials" := "pickled-token"]}))
    = sample_world {["credentials" := "pickled-token"]}.
Proof.
  exact (conj no_file_field_malformed
    (proj1 (malformed_upload_frame (sample_library true) _ _ no_file_field_malformed))).
Defined.

(** ** The credential entry of the session *)

(** C7.  No view removes the credential: on a session that holds one, after
    any sequence of requests to the four routes, whether they return or
    raise, the session still holds a credential.  Only a successful callback
    writes the entry, and it writes a new credential. *)
Theorem credential_never_removed
    {Credentials Service Media ClientConfig : Type}
    (lib : Library Credentials Service Media ClientConfig)
    (requests : list (endpoint * Request)) (w : World Service Media ClientConfig) :
  is_Some (session w !! "credentials") →
  is_Some (session (serve lib requests w) !! "credentials").
Proof.
  revert w. induction requests as [|[e request] rest IH]; intros w Hc.
  - exact Hc.
  - simpl. apply IH. apply view_keeps_credential. exact Hc.
Qed.

Lemma credential_never_removed_witness :
  let requests :=
    [(Index, upload_request ∅);
     (Authorize, upload_request ∅);
     (Oauth2callback, callback_request "forged" "4/abc");
     (Oauth2callback, callback_request "st" "4/abc");
     (Upload_file, upload_request {["file" := photo]})] in
  is_Some (session (sample_world {["credentials" := "pickled-token"]}) !! "credentials") ∧
  is_Some (session (serve (sample_library true) requests
                      (sample_world {["credentials" := "pickled-token"]}))
             !! "credentials").
Proof.
  intros requests.
  assert (H : is_Some (session (sample_world {["credentials" := "pickled-token"]})
                         !! "credentials")).
  { exists "pickled-token". reflexivity. }
  exact (conj H (credential_never_removed (sample_library true) requests _ H)).
Defined.

(** C8.  [get_drive_service] reads the session and does not write it, and its
    result is a function of the session alone.  Called twice in a row it
    returns the same value both times: the same redirect when no credential
    is stored, the same client built from the same unpickled credential (or
    the same exception) when one is. *)
Theorem get_drive_service_idempotent
    {Credentials Service Media ClientConfig : Type}
    (lib : Library Credentials Service Media ClientConfig)
    (w : World Service Media ClientConfig) :
  fst (get_drive_service lib (snd (get_drive_service lib w)))
    = fst (get_drive_service lib w) ∧
  session (snd (get_drive_service lib w)) = session w ∧
  session (snd (get_drive_service lib (snd (get_drive_service lib w))))
    !! "credentials" = session w !! "credentials".
Proof.
  split; [|split].
  - apply get_drive_service_reads_credentials_only.
    rewrite get_drive_service_session. reflexivity.
  - apply get_drive_service_session.
  - rewrite !get_drive_service_session. reflexivity.
Qed.

(** C10.  The authorization start route writes the session once, under
    ['state'], with the token the library issued for this request.  Every
    other key is as before; in particular a stored credential is unchanged. *)
Theorem authorize_frame
    {Credentials Service Media ClientConfig : Type}
    (lib : Library Credentials Service Media ClientConfig)
    (request : Request) (w : World Service Media ClientConfig) (c : string) :
  session w !! "credentials" = Some c →
  fst (authorize lib request w)
    = Ok (redirect (fst (authorization_url lib (authorize_flow lib request) (nonce w)))) ∧
  session (snd (authorize lib request w))
    = <["state" := snd (authorization_url lib (authorize_flow lib request) (nonce w))]>
        (session w) ∧
  session (snd (authorize lib request w)) !! "state"
    = Some (snd (authorization_url lib (authorize_flow lib request) (nonce w))) ∧
  session (snd (authorize lib request w)) !! "credentials" = Some c ∧
  (∀ k, k ≠ "state" →
        session (snd (authorize lib request w)) !! k = session w !! k) ∧
  trace (snd (authorize lib request w))
    = SessionSetItem "state"
        (snd (authorization_url lib (authorize_flow lib request) (nonce w)))
      :: trace w ∧
  nonce (snd (authorize lib request w)) = S (nonce w).
Proof.
  intros Hc. rewrite authorize_run. simpl.
  split; [reflexivity | split; [reflexivity | split; [apply lookup_insert_eq |]]].
  split; [rewrite lookup_insert_ne; [exact Hc | discriminate] |].
  split; [|split; reflexivity].
  intros k Hk. apply lookup_insert_ne. congruence.
Qed.

Lemma authorize_frame_witness :
  let w := sample_world {["credentials" := "pickled-token"; "state" := "old"]} in
  session w !! "credentials" = Some "pickled-token" ∧
  session (snd (authorize (sample_library true) (upload_request ∅) w)) !! "state"
    = Some "st" ∧
  session (snd (authorize (sample_library true) (upload_request ∅) w)) !! "credentials"
    = Some "pickled-token".
Proof.
  intros w.
  assert (H : session w !! "credentials" = Some "pickled-token") by reflexivity.
  pose proof (authorize_frame (sample_library true) (upload_request ∅) w _ H)
    as (_ & _ & Hs & Hk & _).
  exact (conj H (conj Hs Hk)).
Defined.

(** * Further properties of the views *)

(** Case analysis on a run of [upload_file]: the two early returns, then the
    outcome of [get_drive_service] and of the library calls before the create
    call. *)
Ltac upload_cases lib request w :=
  let file := fresh "file" in
  let Hf := fresh "Hf" in
  let Hn := fresh "Hn" in
  let Hc := fresh "Hc" in
  destruct (files request !! "file") as [file|] eqn:Hf;
  [ destruct (decide (filename file = "")) as [Hn|Hn];
    [ rewrite (upload_file_malformed lib request w
                 (or_intror (ex_intro _ file (conj Hf Hn))))
    | rewrite (upload_file_run lib request w file Hf Hn);
      destruct (session w !! "credentials") as [?blob|] eqn:Hc;
      [ rewrite (get_drive_service_present lib w _ Hc); unfold stored_service;
        destruct (pickle_loads lib _) as [?c|?e];
        [ destruct (build lib "drive" "v3" _) as [?s|?e] |]
      | rewrite (get_drive_service_absent lib w Hc) ];
      destruct (MediaFileUpload lib (stream file) true) as [?m|?e] ]
  | rewrite (upload_file_malformed lib request w (or_introl Hf)) ].

(** Case analysis on a run of [oauth2callback]. *)
Ltac callback_cases lib request w :=
  let Hst := fresh "Hst" in
  destruct (session w !! "state") as [?st|] eqn:Hst;
  [ rewrite (oauth2callback_run lib request w _ Hst);
    destruct (fetch_token lib _ (url request)) as [?c|?e] eqn:?Hx
  | rewrite (oauth2callback_no_state lib request w Hst) ].

Lemma index_trace
    {Service Media ClientConfig : Type}
    (request : Request) (w : World Service Media ClientConfig) :
  trace (snd (index request w)) = SessionContains "credentials" :: trace w.
Proof.
  destruct (session w !! "credentials") as [blob|] eqn:Hc.
  - rewrite (index_present _ _ _ Hc). reflexivity.
  - rewrite (index_absent _ _ Hc). reflexivity.
Qed.

Lemma upload_file_no_write
    {Credentials Service Media ClientConfig : Type}
    (lib : Library Credentials Service Media ClientConfig)
    (request : Request) (w : World Service Media ClientConfig) :
  session_writes (trace (snd (upload_file lib request w))) = session_writes (trace w).
Proof.
  upload_cases lib request w; try destruct (files_create_execute lib _ _ _ _);
    reflexivity.
Qed.

(** X1.  One request performs at most one create-file call and at most one
    token exchange.  Only the upload route issues create-file calls and only
    the callback route exchanges tokens. *)
Theorem remote_calls_per_request
    {Credentials Service Media ClientConfig : Type}
    (lib : Library Credentials Service Media ClientConfig)
    (e : endpoint) (request : Request) (w : World Service Media ClientConfig) :
  (List.length (create_calls (trace (snd (view_function lib e request w))))
     ≤ S (List.length (create_calls (trace w))))%nat ∧
  (List.length (token_exchanges (trace (snd (view_function lib e request w))))
     ≤ S (List.length (token_exchanges (trace w))))%nat ∧
  (e ≠ Upload_file →
   create_calls (trace (snd (view_function lib e request w))) = create_calls (trace w)) ∧
  (e ≠ Oauth2callback →
   token_exchanges (trace (snd (view_function lib e request w)))
     = token_exchanges (trace w)).
Proof.
  destruct e; simpl.
  - rewrite index_trace. simpl. repeat split; auto; lia.
  - upload_cases lib request w; try destruct (files_create_execute lib _ _ _ _);
      simpl; repeat split; auto; try lia; congruence.
  - rewrite authorize_run. simpl. repeat split; auto; lia.
  - callback_cases lib request w; simpl; repeat split; auto; try lia; congruence.
Qed.

(** X2.  The main page and the upload route never write the session: after
    the request, returned or raised, the session is the one before it and no
    [session[key] = value] was executed. *)
Theorem read_only_views
    {Credentials Service Media ClientConfig : Type}
    (lib : Library Credentials Service Media ClientConfig)
    (request : Request) (w : World Service Media ClientConfig) :
  session (snd (index request w)) = session w ∧
  session_writes (trace (snd (index request w))) = session_writes (trace w) ∧
  session (snd (upload_file lib request w)) = session w ∧
  session_writes (trace (snd (upload_file lib request w))) = session_writes (trace w).
Proof.
  split; [apply index_session | split; [| split; [apply upload_file_session |]]].
  - rewrite index_trace. reflexivity.
  - apply upload_file_no_write.
Qed.

(** X3.  A request that ends in an exception has written nothing: whatever
    the route, when the view raises, the session after it is the session
    before it. *)
Theorem raising_view_writes_nothing
    {Credentials Service Media ClientConfig : Type}
    (lib : Library Credentials Service Media ClientConfig)
    (e : endpoint) (request : Request) (w : World Service Media ClientConfig)
    (x : exn) :
  fst (view_function lib e request w) = Raise x →
  session (snd (view_function lib e request w)) = session w ∧
  session_writes (trace (snd (view_function lib e request w)))
    = session_writes (trace w).
Proof.
  intros H. split; [exact (raise_leaves_session lib e request w x H)|].
  destruct e; simpl in *.
  - rewrite index_trace. reflexivity.
  - apply upload_file_no_write.
  - rewrite authorize_run in H. discriminate.
  - revert H. callback_cases lib request w; simpl; intros H;
      [discriminate | reflexivity | reflexivity].
Qed.

Lemma raising_view_writes_nothing_witness :
  fst (view_function (sample_library true) Oauth2callback
         (callback_request "forged" "4/abc")
         (sample_world {["state" := "st"; "credentials" := "pickled-token"]}))
    = Raise (LibraryError "MismatchingStateError") ∧
  session (snd (view_function (sample_library true) Oauth2callback
                  (callback_request "forged" "4/abc")
                  (sample_world {["state" := "st"; "credentials" := "pickled-token"]})))
    = session (sample_world {["state" := "st"; "credentials" := "pickled-token"]}).
Proof.
  assert (H : fst (view_function (sample_library true) Oauth2callback
         (callback_request "forged" "4/abc")
         (sample_world {["state" := "st"; "credentials" := "pickled-token"]}))
    = Raise (LibraryError "MismatchingStateError")) by reflexivity.
  exact (conj H (proj1 (raising_view_writes_nothing (sample_library true) _ _ _ _ H))).
Defined.

(** X4.  When the token exchange raises, the callback raises that same
    exception, after exactly one exchange attempt, and the session is as
    before: the state token stays and no credential is written. *)
Theorem callback_exchange_failure_propagates
    {Credentials Service Media ClientConfig : Type}
    (lib : Library Credentials Service Media ClientConfig)
    (request : Request) (w : World Service Media ClientConfig)
    (st : string) (x : exn) :
  session w !! "state" = Some st →
  fetch_token lib (callback_flow lib request st) (url request) = Raise x →
  fst (oauth2callback lib request w) = Raise x ∧
  session (snd (oauth2callback lib request w)) = session w ∧
  token_exchanges (trace (snd (oauth2callback lib request w)))
    = url request :: token_exchanges (trace w) ∧
  session_writes (trace (snd (oauth2callback lib request w)))
    = session_writes (trace w).
Proof.
  intros Hst Hx. rewrite (oauth2callback_run lib _ _ _ Hst), Hx. simpl. auto.
Qed.

Lemma callback_exchange_failure_propagates_witness :
  session (sample_world {["state" := "st"]}) !! "state" = Some "st" ∧
  fetch_token (sample_library true)
    (callback_flow (sample_library true) (callback_request "forged" "4/abc") "st")
    (url (callback_request "forged" "4/abc"))
    = Raise (LibraryError "MismatchingStateError") ∧
  fst (oauth2callback (sample_library true) (callback_request "forged" "4/abc")
         (sample_world {["state" := "st"]}))
    = Raise (LibraryError "MismatchingStateError").
Proof.
  assert (H1 : session (sample_world {["state" := "st"]}) !! "state" = Some "st")
    by reflexivity.
  assert (H2 : fetch_token (sample_library true)
    (callback_flow (sample_library true) (callback_request "forged" "4/abc") "st")
    (url (callback_request "forged" "4/abc"))
    = Raise (LibraryError "MismatchingStateError")) by reflexivity.
  exact (conj H1 (conj H2 (proj1
    (callback_exchange_failure_propagates (sample_library true) _ _ _ _ H1 H2)))).
Defined.

(** A credential appears only through a successful exchange. *)
Lemma credential_appears_only_by_exchange
    {Credentials Service Media ClientConfig : Type}
    (lib : Library Credentials Service Media ClientConfig)
    (e : endpoint) (request : Request) (w : World Service Media ClientConfig) :
  session w !! "credentials" = None →
  is_Some (session (snd (view_function lib e request w)) !! "credentials") →
  e = Oauth2callback ∧
  ∃ st c,
    session w !! "state" = Some st ∧
    fetch_token lib (callback_flow lib request st) (url request) = Ok c ∧
    session (snd (view_function lib e request w)) !! "credentials"
      = Some (pickle_dumps lib c).
Proof.
  intros Hnone Hsome. destruct e; simpl in *.
  - rewrite index_session, Hnone in Hsome. destruct Hsome; discriminate.
  - rewrite upload_file_session, Hnone in Hsome. destruct Hsome; discriminate.
  - rewrite authorize_run in Hsome. simpl in Hsome.
    rewrite lookup_insert_ne, Hnone in Hsome; [|discriminate].
    destruct Hsome; discriminate.
  - split; [reflexivity|]. revert Hsome.
    callback_cases lib request w; simpl; intros Hsome.
    + exists st, c. rewrite lookup_insert_eq. auto.
    + rewrite Hnone in Hsome. destruct Hsome; discriminate.
    + rewrite Hnone in Hsome. destruct Hsome; discriminate.
Qed.

(** X5.  A session without a credential gains one only through the callback
    route, and only when a state token was stored and the token exchange run
    with that token returned credentials; the entry written is the pickle of
    those credentials. *)
Theorem credential_only_from_successful_exchange
    {Credentials Service Media ClientConfig : Type}
    (lib : Library Credentials Service Media ClientConfig)
    (e : endpoint) (request : Request) (w : World Service Media ClientConfig) :
  session w !! "credentials" = None →
  is_Some (session (snd (view_function lib e request w)) !! "credentials") →
  e = Oauth2callback ∧
  ∃ st c,
    session w !! "state" = Some st ∧
    fetch_token lib (callback_flow lib request st) (url request) = Ok c ∧
    session (snd (view_function lib e request w)) !! "credentials"
      = Some (pickle_dumps lib c).
Proof. apply credential_appears_only_by_exchange. Qed.

Lemma credential_only_from_successful_exchange_witness :
  session (sample_world {["state" := "st"]}) !! "credentials" = None ∧
  is_Some (session (snd (view_function (sample_library true) Oauth2callback
                           (callback_request "st" "4/abc")
                           (sample_world {["state" := "st"]}))) !! "credentials") ∧
  ∃ st c,
    session (sample_world {["state" := "st"]}) !! "state" = Some st ∧
    fetch_token (sample_library true)
      (callback_flow (sample_library true) (callback_request "st" "4/abc") st)
      (url (callback_request "st" "4/abc")) = Ok c ∧
    session (snd (view_function (sample_library true) Oauth2callback
                    (callback_request "st" "4/abc")
                    (sample_world {["state" := "st"]}))) !! "credentials"
      = Some (pickle_dumps (sample_library true) c).
Proof.
  assert (H1 : session (sample_world {["state" := "st"]}) !! "credentials" = None)
    by reflexivity.
  assert (H2 : is_Some (session (snd (view_function (sample_library true) Oauth2callback
                           (callback_request "st" "4/abc")
                           (sample_world {["state" := "st"]}))) !! "credentials")).
  { exists "pickled-token-for-4/abc". reflexivity. }
  exact (conj H1 (conj H2 (proj2
    (credential_only_from_successful_exchange (sample_library true) _ _ _ H1 H2)))).
Defined.

(** X6.  Without the callback route no credential appears: on a session that
    holds none, after any sequence of requests to the main page, the upload
    route and the authorization start route, the session still holds none. *)
Theorem no_credential_without_callback
    {Credentials Service Media ClientConfig : Type}
    (lib : Library Credentials Service Media ClientConfig)
    (requests : list (endpoint * Request)) (w : World Service Media ClientConfig) :
  Forall (λ r, fst r ≠ Oauth2callback) requests →
  session w !! "credentials" = None →
  session (serve lib requests w) !! "credentials" = None.
Proof.
  intros Hall. revert w.
  induction Hall as [|[e request] rest He _ IH]; intros w Hnone; [exact Hnone|].
  simpl. apply IH.
  destruct (session (snd (view_function lib e request w)) !! "credentials")
    as [blob|] eqn:Hafter; [|reflexivity].
  destruct (credential_appears_only_by_exchange lib e request w Hnone) as [Heq _].
  - rewrite Hafter. eexists. reflexivity.
  - simpl in He. contradiction.
Qed.

Lemma no_credential_without_callback_witness :
  let requests :=
    [(Index, plain_request); (Authorize, plain_request);
     (Upload_file, upload_request {["file" := photo]}); (Authorize, plain_request)] in
  Forall (λ r, fst r ≠ Oauth2callback) requests ∧
  session (sample_world ∅) !! "credentials" = None ∧
  session (serve (sample_library true) requests (sample_world ∅)) !! "credentials" = None.
Proof.
  intros requests.
  assert (H1 : Forall (λ r : endpoint * Request, fst r ≠ Oauth2callback) requests).
  { repeat constructor; discriminate. }
  assert (H2 : session (sample_world ∅) !! "credentials" = None) by reflexivity.
  exact (conj H1 (conj H2
    (no_credential_without_callback (sample_library true) requests _ H1 H2))).
Defined.

(** X7.  A session that has never been through the authorization start route
    cannot become authenticated: with neither a state token nor a credential
    stored, after any sequence of requests to the main page, the upload route
    and the callback route, the session still stores neither. *)
Theorem no_credential_without_authorize
    {Credentials Service Media ClientConfig : Type}
    (lib : Library Credentials Service Media ClientConfig)
    (requests : list (endpoint * Request)) (w : World Service Media ClientConfig) :
  Forall (λ r, fst r ≠ Authorize) requests →
  session w !! "state" = None →
  session w !! "credentials" = None →
  session (serve lib requests w) !! "state" = None ∧
  session (serve lib requests w) !! "credentials" = None.
Proof.
  intros Hall. revert w.
  induction Hall as [|[e request] rest He _ IH]; intros w Hst Hc; [auto|].
  simpl.
  assert (Hs : session (snd (view_function lib e request w)) = session w).
  { destruct e; simpl.
    - apply index_session.
    - apply upload_file_session.
    - simpl in He. contradiction.
    - rewrite (oauth2callback_no_state lib _ _ Hst). reflexivity. }
  apply IH; rewrite Hs; assumption.
Qed.

Lemma no_credential_without_authorize_witness :
  let requests :=
    [(Index, plain_request); (Oauth2callback, callback_request "st" "4/abc");
     (Upload_file, upload_request {["file" := photo]})] in
  Forall (λ r, fst r ≠ Authorize) requests ∧
  session (sample_world ∅) !! "state" = None ∧
  session (sample_world ∅) !! "credentials" = None ∧
  session (serve (sample_library true) requests (sample_world ∅)) !! "state" = None ∧
  session (serve (sample_library true) requests (sample_world ∅)) !! "credentials" = None.
Proof.
  intros requests.
  assert (H1 : Forall (λ r : endpoint * Request, fst r ≠ Authorize) requests).
  { repeat constructor; discriminate. }
  assert (H2 : session (sample_world ∅) !! "state" = None) by reflexivity.
  assert (H3 : session (sample_world ∅) !! "credentials" = None) by reflexivity.
  exact (conj H1 (conj H2 (conj H3
    (no_credential_without_authorize (sample_library true) requests _ H1 H2 H3)))).
Defined.

(** X8.  On a well-formed upload from a session that holds a credential, the
    first library call to raise decides the outcome: unpickling the stored
    blob, then building the client, then wrapping the stream.  The request
    ends in that exception and no create-file call is issued. *)
Theorem upload_preparation_failure
    {Credentials Service Media ClientConfig : Type}
    (lib : Library Credentials Service Media ClientConfig)
    (request : Request) (w : World Service Media ClientConfig)
    (file : FileStorage) (blob : string) (x : exn) :
  files request !! "file" = Some file →
  filename file ≠ "" →
  session w !! "credentials" = Some blob →
  (pickle_loads lib blob = Raise x ∨
   (∃ c, pickle_loads lib blob = Ok c ∧ build lib "drive" "v3" c = Raise x) ∨
   (∃ c s, pickle_loads lib blob = Ok c ∧ build lib "drive" "v3" c = Ok s ∧
           MediaFileUpload lib (stream file) true = Raise x)) →
  fst (upload_file lib request w) = Raise x ∧
  create_calls (trace (snd (upload_file lib request w))) = create_calls (trace w).
Proof.
  intros Hf Hname Hc Hfail.
  rewrite (upload_file_run lib _ _ _ Hf Hname), (get_drive_service_present lib _ _ Hc).
  unfold stored_service.
  destruct Hfail as [Hl | [(c & Hl & Hb) | (c & s & Hl & Hb & Hm)]].
  - rewrite Hl. split; reflexivity.
  - rewrite Hl, Hb. split; reflexivity.
  - rewrite Hl, Hb, Hm. split; reflexivity.
Qed.

Lemma upload_preparation_failure_witness :
  let lib := sample_library false in
  let request := upload_request {["file" := photo]} in
  let w := sample_world {["credentials" := "pickled-token"]} in
  files request !! "file" = Some photo ∧
  filename photo ≠ "" ∧
  session w !! "credentials" = Some "pickled-token" ∧
  fst (upload_file lib request w) = Raise (LibraryError "TypeError") ∧
  create_calls (trace (snd (upload_file lib request w))) = create_calls (trace w).
Proof.
  intros lib request w.
  assert (H1 : files request !! "file" = Some photo) by reflexivity.
  assert (H2 : filename photo ≠ "") by discriminate.
  assert (H3 : session w !! "credentials" = Some "pickled-token") by reflexivity.
  refine (conj H1 (conj H2 (conj H3
    (upload_preparation_failure lib request w photo _ _ H1 H2 H3 _)))).
  right. right. eexists. eexists. repeat split; reflexivity.
Defined.

(** X9.  When the upload route answers a well-formed upload with a response,
    the response is the redirect to the main page, the session held a
    credential, and this request issued the create-file call with the file's
    metadata, which returned. *)
Theorem upload_response_implies_create
    {Credentials Service Media ClientConfig : Type}
    (lib : Library Credentials Service Media ClientConfig)
    (request : Request) (w : World Service Media ClientConfig)
    (file : FileStorage) (r : Response) :
  files request !! "file" = Some file →
  filename file ≠ "" →
  fst (upload_file lib request w) = Ok r →
  r = redirect (url_for Index) ∧
  is_Some (session w !! "credentials") ∧
  create_calls (trace (snd (upload_file lib request w)))
    = file_metadata file :: create_calls (trace w).
Proof.
  intros Hf Hname. rewrite (upload_file_run lib _ _ _ Hf Hname).
  destruct (session w !! "credentials") as [blob|] eqn:Hc.
  - rewrite (get_drive_service_present lib _ _ Hc). unfold stored_service.
    destruct (pickle_loads lib blob) as [c|e]; [|discriminate].
    destruct (build lib "drive" "v3" c) as [s|e]; [|discriminate].
    destruct (MediaFileUpload lib (stream file) true) as [m|e]; [|discriminate].
    destruct (files_create_execute lib s (file_metadata file) m "id");
      simpl; [|discriminate].
    intros H. injection H as <-. split; [reflexivity | split; [|reflexivity]].
    eexists. reflexivity.
  - rewrite (get_drive_service_absent lib _ Hc).
    destruct (MediaFileUpload lib (stream file) true); discriminate.
Qed.

Lemma upload_response_implies_create_witness :
  let lib := sample_library true in
  let request := upload_request {["file" := photo]} in
  let w := sample_world {["credentials" := "pickled-token"]} in
  files request !! "file" = Some photo ∧
  filename photo ≠ "" ∧
  fst (upload_file lib request w) = Ok (redirect "/") ∧
  create_calls (trace (snd (upload_file lib request w)))
    = file_metadata photo :: create_calls (trace w).
Proof.
  intros lib request w.
  assert (H1 : files request !! "file" = Some photo) by reflexivity.
  assert (H2 : filename photo ≠ "") by discriminate.
  assert (H3 : fst (upload_file lib request w) = Ok (redirect "/")) by reflexivity.
  exact (conj H1 (conj H2 (conj H3 (proj2 (proj2
    (upload_response_implies_create lib request w photo _ H1 H2 H3)))))).
Defined.

(** X10.  The two halves of the authorization flow compose: the callback
    runs the token exchange with exactly the state token the authorization
    start route issued and stored.  When that exchange returns credentials,
    the session after both requests is the one before them with the token
    under ['state'] and the pickled credentials under ['credentials'], and
    the main page then renders the form. *)
Theorem authorize_then_callback
    {Credentials Service Media ClientConfig : Type}
    (lib : Library Credentials Service Media ClientConfig)
    (request1 request2 request3 : Request) (w : World Service Media ClientConfig)
    (c : Credentials) :
  fetch_token lib
    (callback_flow lib request2
       (snd (authorization_url lib (authorize_flow lib request1) (nonce w))))
    (url request2) = Ok c →
  session (serve lib [(Authorize, request1); (Oauth2callback, request2)] w)
    = <["credentials" := pickle_dumps lib c]>
        (<["state" := snd (authorization_url lib (authorize_flow lib request1) (nonce w))]>
           (session w)) ∧
  token_exchanges
    (trace (serve lib [(Authorize, request1); (Oauth2callback, request2)] w))
    = url request2 :: token_exchanges (trace w) ∧
  fst (index request3
         (serve lib [(Authorize, request1); (Oauth2callback, request2)] w))
    = Ok (render_template "index.html" [("folder_id", FOLDER_ID)]).
Proof.
  intros Hx. simpl. rewrite authorize_run. simpl.
  set (tok := snd (authorization_url lib (authorize_flow lib request1) (nonce w))) in *.
  set (w1 := {| session := <["state" := tok]> (session w) |}).
  assert (Hst : session w1 !! "state" = Some tok) by apply lookup_insert_eq.
  rewrite (oauth2callback_run lib _ _ _ Hst), Hx. simpl.
  split; [reflexivity | split; [reflexivity|]].
  erewrite index_present; [reflexivity|]. simpl. apply lookup_insert_eq.
Qed.

Lemma authorize_then_callback_witness :
  let lib := sample_library true in
  let w := sample_world ∅ in
  fetch_token lib
    (callback_flow lib (callback_request "st" "4/abc")
       (snd (authorization_url lib (authorize_flow lib plain_request) (nonce w))))
    (url (callback_request "st" "4/abc")) = Ok "token-for-4/abc" ∧
  session (serve lib [(Authorize, plain_request);
                      (Oauth2callback, callback_request "st" "4/abc")] w)
    = <["credentials" := "pickled-token-for-4/abc"]> (<["state" := "st"]> ∅).
Proof.
  intros lib w.
  assert (H : fetch_token lib
    (callback_flow lib (callback_request "st" "4/abc")
       (snd (authorization_url lib (authorize_flow lib plain_request) (nonce w))))
    (url (callback_request "st" "4/abc")) = Ok "token-for-4/abc") by reflexivity.
  exact (conj H (proj1
    (authorize_then_callback lib plain_request _ plain_request w _ H))).
Defined.

(** X11.  Starting the flow again replaces the pending state token.  After
    two visits to the authorization start route the session stores the second
    token only, so with a library that enforces the state a callback that
    presents the first token is rejected and leaves the session as it is. *)
Theorem stale_state_token_rejected
    {Credentials Service Media ClientConfig : Type}
    (lib : Library Credentials Service Media ClientConfig)
    (request1 request2 request3 : Request) (w : World Service Media ClientConfig) :
  enforces_state lib →
  snd (authorization_url lib (authorize_flow lib request1) (nonce w))
    ≠ snd (authorization_url lib (authorize_flow lib request2) (S (nonce w))) →
  presented_state request3
    = Some (snd (authorization_url lib (authorize_flow lib request1) (nonce w))) →
  session (serve lib [(Authorize, request1); (Authorize, request2)] w) !! "state"
    = Some (snd (authorization_url lib (authorize_flow lib request2) (S (nonce w)))) ∧
  is_ok (fst (oauth2callback lib request3
                (serve lib [(Authorize, request1); (Authorize, request2)] w))) = false ∧
  session (snd (oauth2callback lib request3
                  (serve lib [(Authorize, request1); (Authorize, request2)] w)))
    = session (serve lib [(Authorize, request1); (Authorize, request2)] w).
Proof.
  intros Hlib Hne Hpres. simpl. rewrite !authorize_run. simpl.
  set (tok1 := snd (authorization_url lib (authorize_flow lib request1) (nonce w))) in *.
  set (tok2 := snd (authorization_url lib (authorize_flow lib request2) (S (nonce w)))) in *.
  set (w2 := {| session := <["state" := tok2]> (<["state" := tok1]> (session w)) |}).
  assert (Hst : session w2 !! "state" = Some tok2) by apply lookup_insert_eq.
  split; [exact Hst|].
  rewrite (oauth2callback_run lib _ _ _ Hst).
  assert (Hrej : is_ok (fetch_token lib (callback_flow lib request3 tok2) (url request3))
                 = false).
  { apply Hlib. simpl. unfold presented_state in Hpres. rewrite Hpres. congruence. }
  destruct (fetch_token lib (callback_flow lib request3 tok2) (url request3));
    [discriminate|].
  split; reflexivity.
Qed.

Lemma stale_state_token_rejected_witness :
  let lib := sample_library true in
  let w := sample_world ∅ in
  let w2 := serve lib [(Authorize, plain_request); (Authorize, plain_request)] w in
  enforces_state lib ∧
  snd (authorization_url lib (authorize_flow lib plain_request) (nonce w))
    ≠ snd (authorization_url lib (authorize_flow lib plain_request) (S (nonce w))) ∧
  presented_state (callback_request "st" "4/abc")
    = Some (snd (authorization_url lib (authorize_flow lib plain_request) (nonce w))) ∧
  session w2 !! "state" = Some "stI" ∧
  is_ok (fst (oauth2callback lib (callback_request "st" "4/abc") w2)) = false ∧
  session (snd (oauth2callback lib (callback_request "st" "4/abc") w2)) = session w2.
Proof.
  intros lib w w2.
  assert (H2 : snd (authorization_url lib (authorize_flow lib plain_request) (nonce w))
    ≠ snd (authorization_url lib (authorize_flow lib plain_request) (S (nonce w))))
    by discriminate.
  assert (H3 : presented_state (callback_request "st" "4/abc")
    = Some (snd (authorization_url lib (authorize_flow lib plain_request) (nonce w))))
    by reflexivity.
  exact (conj (sample_library_enforces_state true) (conj H2 (conj H3
    (stale_state_token_rejected lib plain_request plain_request
       (callback_request "st" "4/abc") w
       (sample_library_enforces_state true) H2 H3)))).
Defined.

(** X12.  The main page looks only at whether a credential is stored.  Two
    sessions that agree on the presence of the ['credentials'] key get the
    same response whatever the stored bytes are: the page never unpickles
    the credential. *)
Theorem index_reads_presence_only
    {Service Media ClientConfig : Type}
    (request1 request2 : Request) (w1 w2 : World Service Media ClientConfig) :
  (is_Some (session w1 !! "credentials") ↔ is_Some (session w2 !! "credentials")) →
  fst (index request1 w1) = fst (index request2 w2).
Proof.
  intros Hiff.
  destruct (session w1 !! "credentials") as [b1|] eqn:H1;
    destruct (session w2 !! "credentials") as [b2|] eqn:H2.
  - rewrite (index_present _ _ _ H1), (index_present _ _ _ H2). reflexivity.
  - destruct (proj1 Hiff) as [b Hb]; [eexists; reflexivity | discriminate].
  - destruct (proj2 Hiff) as [b Hb]; [eexists; reflexivity | discriminate].
  - rewrite (index_absent _ _ H1), (index_absent _ _ H2). reflexivity.
Qed.

Lemma index_reads_presence_only_witness :
  (is_Some (session (sample_world {["credentials" := "pickled-token"]}) !! "credentials")
   ↔ is_Some (session (sample_world {["credentials" := "garbage"]}) !! "credentials")) ∧
  fst (index plain_request (sample_world {["credentials" := "pickled-token"]}))
    = fst (index plain_request (sample_world {["credentials" := "garbage"]})).
Proof.
  assert (H : is_Some (session (sample_world {["credentials" := "pickled-token"]})
                         !! "credentials")
              ↔ is_Some (session (sample_world {["credentials" := "garbage"]})
                           !! "credentials")).
  { split; intros _; eexists; reflexivity. }
  exact (conj H (index_reads_presence_only plain_request plain_request _ _ H)).
Defined.

(** X13.  The redirects the main page, the upload route and the callback
    route answer with stay inside the application and can be followed: the
    location is the rule of the main page or of the authorization start route,
    and both routes accept GET.  None of them sends the browser to the
    POST-only upload route. *)
Theorem internal_redirects_accept_get
    {Credentials Service Media ClientConfig : Type}
    (lib : Library Credentials Service Media ClientConfig)
    (e : endpoint) (request : Request) (w : World Service Media ClientConfig)
    (location : string) :
  e ≠ Authorize →
  fst (view_function lib e request w) = Ok (redirect location) →
  ∃ target,
    match_rule location = Some target ∧
    (target = Index ∨ target = Authorize) ∧
    "GET" ∈ methods target.
Proof.
  intros He.
  assert (Hindex : ∃ target, match_rule (url_for Index) = Some target ∧
                     (target = Index ∨ target = Authorize) ∧ "GET" ∈ methods target).
  { exists Index. split; [reflexivity | split; [left; reflexivity|]].
    simpl. apply list_elem_of_here. }
  assert (Hauth : ∃ target, match_rule (url_for Authorize) = Some target ∧
                    (target = Index ∨ target = Authorize) ∧ "GET" ∈ methods target).
  { exists Authorize. split; [reflexivity | split; [right; reflexivity|]].
    simpl. apply list_elem_of_here. }
  destruct e; simpl; [| | contradiction |].
  - destruct (session w !! "credentials") as [blob|] eqn:Hc.
    + rewrite (index_present _ _ _ Hc). discriminate.
    + rewrite (index_absent _ _ Hc). simpl. intros H. injection H as <-. exact Hauth.
  - upload_cases lib request w; try destruct (files_create_execute lib _ _ _ _);
      simpl; intros H; try discriminate; injection H as <-; exact Hindex.
  - callback_cases lib request w; simpl; intros H; try discriminate.
    injection H as <-. exact Hindex.
Qed.

Lemma internal_redirects_accept_get_witness :
  Index ≠ Authorize ∧
  fst (view_function (sample_library true) Index plain_request (sample_world ∅))
    = Ok (redirect "/authorize") ∧
  ∃ target,
    match_rule "/authorize" = Some target ∧
    (target = Index ∨ target = Authorize) ∧
    "GET" ∈ methods target.
Proof.
  assert (H1 : Index ≠ Authorize) by discriminate.
  assert (H2 : fst (view_function (sample_library true) Index plain_request
                      (sample_world ∅)) = Ok (redirect "/authorize")) by reflexivity.
  exact (conj H1 (conj H2
    (internal_redirects_accept_get (sample_library true) Index plain_request
       (sample_world ∅) "/authorize" H1 H2))).
Defined.
